(** * AI-Resume-Checker: the storage schema, the upload flow and the
      analyze-resume edge function, embedded and verified.

    Sources embedded here:
    - the SQL migration (tables, row level security policies, foreign keys);
    - [src/pages/Dashboard.tsx], function [handleFileUpload];
    - [supabase/functions/analyze-resume/index.ts], the [serve] handler. *)

From stdpp Require Import base strings list gmap.
From Stdlib Require Import ZArith Ascii String DecimalString.

Set Warnings "-register-all".
Local Open Scope string_scope.

(** ** JavaScript values and the few runtime operations the code relies on *)

Module Js.

(** JSON-shaped JavaScript values.  A number carries the text JavaScript
    prints for it ([String(n)]): the code only ever tests a number for
    truthiness, prints it, or passes it on unchanged. *)
Inductive JsValue : Type :=
| JUndefined
| JNull
| JBool (b : bool)
| JNumber (repr : string)
| JString (s : string)
| JArray (xs : list JsValue)
| JObject (fields : gmap string JsValue).

(** [!v] is [negb (truthy v)]. *)
Definition truthy (v : JsValue) : bool :=
  match v with
  | JUndefined | JNull => false
  | JBool b => b
  | JNumber r => negb (String.eqb r "0" || String.eqb r "NaN")
  | JString s => negb (String.eqb s "")
  | JArray _ | JObject _ => true
  end.

(** [a || b] *)
Definition or_else (a b : JsValue) : JsValue := if truthy a then a else b.

Definition join (sep : string) (parts : list string) : string :=
  match parts with
  | [] => ""
  | p :: ps => fold_left (fun acc q => acc ++ sep ++ q) ps p
  end.

(** String conversion, as done by a template literal [`${v}`]. *)
Fixpoint ToString (v : JsValue) : string :=
  match v with
  | JUndefined => "undefined"
  | JNull => "null"
  | JBool true => "true"
  | JBool false => "false"
  | JNumber r => r
  | JString s => s
  | JArray xs =>
      join "," (map (fun x => match x with
                              | JUndefined | JNull => ""
                              | _ => ToString x
                              end) xs)
  | JObject _ => "[object Object]"
  end.

(** What evaluating an expression can end in: a value, or a thrown error.
    [ThrowError m] is [throw new Error(m)]; the other constructors are errors
    raised by the runtime itself, whose message is the engine's. *)
Inductive Thrown : Type :=
| ThrowError (message : string)
| TypeError
| SyntaxError.

Inductive Completion (A : Type) : Type :=
| Normal (a : A)
| Throw (e : Thrown).
Arguments Normal {A} a.
Arguments Throw {A} e.

(** Property read [v.k] for a name [k] that is neither an index nor a
    built-in property (all names read by the code are of that kind). *)
Definition get (v : JsValue) (k : string) : Completion JsValue :=
  match v with
  | JUndefined | JNull => Throw TypeError
  | JObject fields => Normal (default JUndefined (fields !! k))
  | _ => Normal JUndefined
  end.

(** Indexed read [v[i]]. *)
Definition get_index (v : JsValue) (i : nat) : Completion JsValue :=
  match v with
  | JUndefined | JNull => Throw TypeError
  | JArray xs => Normal (default JUndefined (xs !! i))
  | JString s =>
      Normal (match String.get i s with
              | Some c => JString (String c "")
              | None => JUndefined
              end)
  | JObject fields =>
      Normal (default JUndefined
                (fields !! NilEmpty.string_of_uint (Nat.to_uint i)))
  | _ => Normal JUndefined
  end.

(** [s.replace(pat, rep)] with a string pattern: the first occurrence only. *)
Fixpoint replace (pat rep s : string) : string :=
  if String.prefix pat s
  then rep ++ String.substring (String.length pat)
                               (String.length s - String.length pat) s
  else match s with
       | EmptyString => EmptyString
       | String c rest => String c (replace pat rep rest)
       end.

(** [s.split(sep)] for a one-character separator: never empty. *)
Fixpoint split_on (sep : ascii) (s : string) : list string :=
  match s with
  | EmptyString => [EmptyString]
  | String c rest =>
      if Ascii.eqb c sep then EmptyString :: split_on sep rest
      else match split_on sep rest with
           | [] => [String c EmptyString]
           | seg :: segs => String c seg :: segs
           end
  end.

(** [arr.pop()] as an expression: the last element, if any. *)
Definition pop (arr : list string) : option string := last arr.

(** Does the whole of [s] match [[^/.]+] ? *)
Fixpoint no_slash_dot (s : string) : bool :=
  match s with
  | EmptyString => true
  | String c rest =>
      negb (Ascii.eqb c "/"%char || Ascii.eqb c "."%char) && no_slash_dot rest
  end.

(** [s.replace(/\.[^/.]+$/, "")]: the leftmost position at which the
    pattern matches up to the end of the input is cut off. *)
Fixpoint strip_extension (s : string) : string :=
  match s with
  | EmptyString => EmptyString
  | String c rest =>
      if Ascii.eqb c "."%char && negb (String.eqb rest "") && no_slash_dot rest
      then EmptyString
      else String c (strip_extension rest)
  end.

(** [String(n)] for a non-negative integer. *)
Definition string_of_N (n : N) : string :=
  NilEmpty.string_of_uint (N.to_uint n).

End Js.

(** ** The storage layer: schema, row level security, referential actions *)

Module Sql.
Import Js.

(** A row maps column names to values; SQL NULL is [JNull]. *)
Abbreviation Row := (gmap string JsValue).
Abbreviation Database := (gmap string (list Row)).

Definition rows (db : Database) (table : string) : list Row :=
  default [] (db !! table).

Inductive SqlType := UUID | TEXT | INTEGER | TEXT_ARRAY | TIMESTAMPTZ.
Inductive ColumnDefault := NoDefault | GenRandomUuid | Now.
Inductive OnDelete := NoAction | Cascade.

Record Reference := {
  ref_table : string;
  ref_column : string;
  on_delete : OnDelete;
}.

Record Column := {
  col_name : string;
  col_type : SqlType;
  not_null : bool;
  col_default : ColumnDefault;
  references : option Reference;
}.

Record Table := {
  tbl_name : string;
  columns : list Column;
  row_level_security : bool;
}.

Definition column (name : string) (ty : SqlType) (nn : bool)
    (d : ColumnDefault) : Column :=
  {| col_name := name; col_type := ty; not_null := nn; col_default := d;
     references := None |}.

Definition created_updated : list Column :=
  [ column "created_at" TIMESTAMPTZ true Now;
    column "updated_at" TIMESTAMPTZ true Now ].

(** [CREATE TABLE public.profiles] *)
Definition profiles : Table :=
  {| tbl_name := "profiles";
     columns :=
       [ column "id" UUID true GenRandomUuid;
         column "user_id" UUID true NoDefault;
         column "email" TEXT false NoDefault;
         column "full_name" TEXT false NoDefault ] ++ created_updated;
     row_level_security := true |}.

(** [CREATE TABLE public.resumes] *)
Definition resumes : Table :=
  {| tbl_name := "resumes";
     columns :=
       [ column "id" UUID true GenRandomUuid;
         column "user_id" UUID true NoDefault;
         column "title" TEXT true NoDefault;
         column "file_name" TEXT true NoDefault;
         column "file_path" TEXT true NoDefault;
         column "file_size" INTEGER false NoDefault;
         column "content_text" TEXT false NoDefault ] ++ created_updated;
     row_level_security := true |}.

(** [CREATE TABLE public.job_descriptions] *)
Definition job_descriptions : Table :=
  {| tbl_name := "job_descriptions";
     columns :=
       [ column "id" UUID true GenRandomUuid;
         column "user_id" UUID true NoDefault;
         column "title" TEXT true NoDefault;
         column "company" TEXT false NoDefault;
         column "description" TEXT true NoDefault;
         column "requirements" TEXT false NoDefault ] ++ created_updated;
     row_level_security := true |}.

(** [CREATE TABLE public.analysis_reports] *)
Definition analysis_reports : Table :=
  {| tbl_name := "analysis_reports";
     columns :=
       [ column "id" UUID true GenRandomUuid;
         column "user_id" UUID true NoDefault;
         {| col_name := "resume_id"; col_type := UUID; not_null := true;
            col_default := NoDefault;
            references := Some {| ref_table := "resumes"; ref_column := "id";
                                  on_delete := Cascade |} |};
         {| col_name := "job_description_id"; col_type := UUID;
            not_null := true; col_default := NoDefault;
            references := Some {| ref_table := "job_descriptions";
                                  ref_column := "id";
                                  on_delete := Cascade |} |};
         column "relevance_score" INTEGER false NoDefault;
         column "missing_skills" TEXT_ARRAY false NoDefault;
         column "strengths" TEXT_ARRAY false NoDefault;
         column "weaknesses" TEXT_ARRAY false NoDefault;
         column "improvement_suggestions" TEXT false NoDefault;
         column "ai_summary" TEXT false NoDefault;
         column "interview_questions" TEXT_ARRAY false NoDefault ]
       ++ created_updated;
     row_level_security := true |}.

Definition schema : list Table :=
  [ profiles; resumes; job_descriptions; analysis_reports ].

Definition find_table (name : string) : option Table :=
  find (fun t => String.eqb (tbl_name t) name) schema.

(** *** Row level security *)

Inductive Command := SELECT | INSERT | UPDATE | DELETE.

Definition Command_eqb (a b : Command) : bool :=
  match a, b with
  | SELECT, SELECT | INSERT, INSERT | UPDATE, UPDATE | DELETE, DELETE => true
  | _, _ => false
  end.

(** The expressions the policies are written in. *)
Inductive Scalar := AuthUid | Col (name : string).
Inductive Cond := Eq (a b : Scalar).

Record Policy := {
  policy_name : string;
  on_table : string;
  for_command : Command;
  using_expr : option Cond;
  with_check_expr : option Cond;
}.

Definition owner_is_caller : Cond := Eq AuthUid (Col "user_id").

Definition policy_using (name table : string) (c : Command) : Policy :=
  {| policy_name := name; on_table := table; for_command := c;
     using_expr := Some owner_is_caller; with_check_expr := None |}.

Definition policy_check (name table : string) (c : Command) : Policy :=
  {| policy_name := name; on_table := table; for_command := c;
     using_expr := None; with_check_expr := Some owner_is_caller |}.

(** The [CREATE POLICY] statements on the four public tables, in order. *)
Definition policies : list Policy :=
  [ policy_using "Users can view their own profile" "profiles" SELECT;
    policy_using "Users can update their own profile" "profiles" UPDATE;
    policy_check "Users can insert their own profile" "profiles" INSERT;
    policy_using "Users can view their own resumes" "resumes" SELECT;
    policy_check "Users can create their own resumes" "resumes" INSERT;
    policy_using "Users can update their own resumes" "resumes" UPDATE;
    policy_using "Users can delete their own resumes" "resumes" DELETE;
    policy_using "Users can view their own job descriptions"
      "job_descriptions" SELECT;
    policy_check "Users can create their own job descriptions"
      "job_descriptions" INSERT;
    policy_using "Users can update their own job descriptions"
      "job_descriptions" UPDATE;
    policy_using "Users can delete their own job descriptions"
      "job_descriptions" DELETE;
    policy_using "Users can view their own analysis reports"
      "analysis_reports" SELECT;
    policy_check "Users can create their own analysis reports"
      "analysis_reports" INSERT;
    policy_using "Users can update their own analysis reports"
      "analysis_reports" UPDATE;
    policy_using "Users can delete their own analysis reports"
      "analysis_reports" DELETE ].

(** The text of a uuid or text value; [None] is SQL NULL. *)
Definition text_of (v : option JsValue) : option string :=
  match v with
  | Some (JString s) => Some s
  | _ => None
  end.

(** [auth.uid()] is the caller's identity, NULL for an anonymous caller. *)
Definition eval_scalar (uid : option string) (r : Row) (e : Scalar)
    : option string :=
  match e with
  | AuthUid => uid
  | Col name => text_of (r !! name)
  end.

(** Three-valued [=]: NULL as soon as one side is NULL. *)
Definition eval_cond (uid : option string) (r : Row) (c : Cond)
    : option bool :=
  match c with
  | Eq a b =>
      match eval_scalar uid r a, eval_scalar uid r b with
      | Some x, Some y => Some (String.eqb x y)
      | _, _ => None
      end
  end.

(** A policy expression lets a row through only when it is true (not
    false, not NULL); a clause that is left out restricts nothing. *)
Definition passes (uid : option string) (r : Row) (c : option Cond) : bool :=
  match c with
  | None => true
  | Some c => match eval_cond uid r c with Some true => true | _ => false end
  end.

Definition policies_for (table : string) (c : Command) : list Policy :=
  filter (fun p => String.eqb (on_table p) table
                   && Command_eqb (for_command p) c) policies.

(** For UPDATE, a policy without WITH CHECK checks the new row against its
    USING expression. *)
Definition effective_check (p : Policy) : option Cond :=
  match with_check_expr p with
  | Some c => Some c
  | None => using_expr p
  end.

Definition rls_on (table : string) : bool :=
  match find_table table with
  | Some t => row_level_security t
  | None => false
  end.


Definition check_ok (uid : option string) (table : string) (c : Command)
    (r : Row) : bool :=
  negb (rls_on table)
  || existsb (fun p => passes uid r (effective_check p)) (policies_for table c).




Definition owner (r : Row) : option string := text_of (r !! "user_id").

(** *** Statements run under a caller's identity *)


(** A new row refused by the INSERT policies fails the statement. *)
Definition exec_insert (uid : option string) (table : string) (new : Row)
    (db : Database) : option Database :=
  if check_ok uid table INSERT new
  then Some (<[table := (rows db table ++ [new])%list]> db)
  else None.


(** *** Deletion and the referential actions *)

(** The foreign keys [(child table, child column, parent column)] that
    point at [parent] with ON DELETE CASCADE (the schema declares no other
    action). *)
Definition cascading_references (parent : string)
    : list (string * string * string) :=
  flat_map (fun t =>
    flat_map (fun c =>
      match references c with
      | Some {| ref_table := rt; ref_column := rc; on_delete := Cascade |} =>
          if String.eqb rt parent then [(tbl_name t, col_name c, rc)] else []
      | _ => []
      end) (columns t)) schema.

(** Does [child]'s foreign key column hold the key of one of [parents]? *)
Definition refers_to (child_col parent_col : string) (parents : list Row)
    (child : Row) : bool :=
  match text_of (child !! child_col) with
  | Some k =>
      existsb (fun p => match text_of (p !! parent_col) with
                        | Some k' => String.eqb k k'
                        | None => false
                        end) parents
  | None => false
  end.

(** Remove the rows [victim] selects, then the rows that referenced them,
    and so on down the chain of references ([fuel] bounds its length). *)
Fixpoint delete_where (fuel : nat) (table : string) (victim : Row -> bool)
    (db : Database) : Database :=
  let gone := filter (fun r => victim r) (rows db table) in
  let db1 := <[table := filter (fun r => negb (victim r)) (rows db table)]> db in
  match fuel with
  | O => db1
  | S fuel' =>
      fold_left
        (fun acc '(child, child_col, parent_col) =>
           delete_where fuel' child (refers_to child_col parent_col gone) acc)
        (cascading_references table) db1
  end.

Definition delete_from (table : string) (victim : Row -> bool)
    (db : Database) : Database :=
  delete_where (List.length schema) table victim db.


Definition has_id (id : string) (r : Row) : bool :=
  match text_of (r !! "id") with
  | Some k => String.eqb k id
  | None => false
  end.

(** Column defaults, filled in for the columns an INSERT leaves out. *)
Definition default_value (uuid now : string) (d : ColumnDefault) : JsValue :=
  match d with
  | NoDefault => JNull
  | GenRandomUuid => JString uuid
  | Now => JString now
  end.

Definition fill_defaults (uuid now : string) (cols : list Column) (r : Row)
    : Row :=
  fold_right
    (fun c acc =>
       match acc !! col_name c with
       | Some _ => acc
       | None => <[col_name c := default_value uuid now (col_default c)]> acc
       end)
    r cols.

Definition with_defaults (t : Table) (uuid now : string) (r : Row) : Row :=
  fill_defaults uuid now (columns t) r.

End Sql.

(** ** The upload flow: [handleFileUpload] of the dashboard page *)

Module Dashboard.
Import Js Sql.

Record File := { name : string; type : string; size : N }.
Record User := { id : string }.

Record Toast := {
  variant : option string;
  title : string;
  description : string;
}.

(** Calls that leave the browser. *)
Inductive Call :=
| StorageUpload (bucket key : string) (file : File)
| DbInsert (table : string) (row : Row)
| DbSelect (table : string).

(** What the page, the bucket and the database look like. *)
Record State := {
  storage : gmap string File;
  db : Database;
  toasts : list Toast;
  isUploading : bool;
  calls : list Call;
}.

(** What the handler cannot know in advance: the clock, the values the
    database generates, and failures the two services report. *)
Record Env := {
  Date_now : N;
  gen_random_uuid : string;
  now : string;
  upload_failure : string -> File -> option string;
  insert_failure : Row -> option string;
}.

Definition toast (t : Toast) (st : State) : State :=
  {| storage := storage st; db := db st; toasts := (toasts st ++ [t])%list;
     isUploading := isUploading st; calls := calls st |}.

Definition setIsUploading (b : bool) (st : State) : State :=
  {| storage := storage st; db := db st; toasts := toasts st;
     isUploading := b; calls := calls st |}.

Definition call (c : Call) (st : State) : State :=
  {| storage := storage st; db := db st; toasts := toasts st;
     isUploading := isUploading st; calls := (calls st ++ [c])%list |}.

Definition set_storage (s : gmap string File) (st : State) : State :=
  {| storage := s; db := db st; toasts := toasts st;
     isUploading := isUploading st; calls := calls st |}.

Definition set_db (d : Database) (st : State) : State :=
  {| storage := storage st; db := d; toasts := toasts st;
     isUploading := isUploading st; calls := calls st |}.

Definition allowedTypes : list string :=
  [ "application/pdf";
    "application/vnd.openxmlformats-officedocument.wordprocessingml.document" ].

Definition includes (l : list string) (x : string) : bool :=
  existsb (String.eqb x) l.

Definition destructive (t d : string) : Toast :=
  {| variant := Some "destructive"; title := t; description := d |}.

(** [supabase.storage.from('resumes').upload(key, file)]: an existing key
    is not overwritten.  Returns the error, if any. *)
Definition storage_upload (env : Env) (key : string) (file : File)
    (st : State) : option string * State :=
  let st := call (StorageUpload "resumes" key file) st in
  match upload_failure env key file with
  | Some e => (Some e, st)
  | None =>
      match storage st !! key with
      | Some _ => (Some "The resource already exists", st)
      | None => (None, set_storage (<[key := file]> (storage st)) st)
      end
  end.

(** [supabase.from('resumes').insert(row)] with the signed-in user's
    session: the INSERT policies apply.  Returns the error, if any. *)
Definition db_insert (env : Env) (uid : string) (table : string) (row : Row)
    (st : State) : option string * State :=
  let st := call (DbInsert table row) st in
  match insert_failure env row with
  | Some e => (Some e, st)
  | None =>
      match find_table table with
      | None => (Some "relation does not exist", st)
      | Some t =>
          let new := with_defaults t (gen_random_uuid env) (now env) row in
          match exec_insert (Some uid) table new (db st) with
          | Some d => (None, set_db d st)
          | None => (Some "new row violates row-level security policy", st)
          end
      end
  end.

(** [loadResumes()] is started and not awaited: only its query is
    recorded. *)
Definition loadResumes (st : State) : State := call (DbSelect "resumes") st.

Definition storage_key (env : Env) (user : User) (file : File) : string :=
  let fileExt := pop (split_on "."%char (name file)) in
  id user ++ "/" ++ string_of_N (Date_now env) ++ "."
  ++ match fileExt with Some e => e | None => "undefined" end.

Definition resume_row (user : User) (file : File) (fileName : string) : Row :=
  {[ "user_id" := JString (id user);
     "title" := JString (strip_extension (name file));
     "file_name" := JString (name file);
     "file_path" := JString fileName;
     "file_size" := JNumber (string_of_N (size file)) ]}.

Definition handleFileUpload (env : Env) (file : option File)
    (user : option User) (st : State) : State :=
  match file, user with
  | Some file, Some user =>
      if negb (includes allowedTypes (type file)) then
        toast (destructive "Invalid File Type"
                           "Please upload a PDF or DOCX file") st
      else if (5 * 1024 * 1024 <? size file)%N then
        toast (destructive "File Too Large"
                           "Please upload a file smaller than 5MB") st
      else
        let st := setIsUploading true st in
        let fileName := storage_key env user file in
        let st :=
          match storage_upload env fileName file st with
          | (Some uploadError, st) =>
              toast (destructive "Upload Failed" uploadError) st
          | (None, st) =>
              match db_insert env (id user) "resumes"
                              (resume_row user file fileName) st with
              | (Some dbError, st) =>
                  toast (destructive "Upload Failed" dbError) st
              | (None, st) =>
                  let st := toast {| variant := None; title := "Success";
                                     description :=
                                       "Resume uploaded successfully" |} st in
                  loadResumes st
              end
          end in
        setIsUploading false st
  | _, _ => st
  end.

End Dashboard.

(** ** The orchestration endpoint: the [serve] handler of analyze-resume

    The handler is a function of the request and the database; the auth
    service, the model API and the JSON parser of the runtime are a [World]
    it is run in.  The database client is the service-role client, which row
    level security does not restrict: ownership is checked by the [user_id]
    filter of each query.  Writes to the console are left out. *)

Module AnalyzeResume.
Import Js Sql.

Definition QUOTE : string := String (ascii_of_nat 34) EmptyString.
Definition NL : string := String (ascii_of_nat 10) EmptyString.
Definition lines (ls : list string) : string := join NL ls.

Definition corsHeaders : list (string * string) :=
  [ ("Access-Control-Allow-Origin", "*");
    ("Access-Control-Allow-Headers",
     "authorization, x-client-info, apikey, content-type") ].

(** *** Requests, responses, and the services the handler talks to *)

Record Request := {
  method : string;
  Authorization : option string;   (* [req.headers.get('Authorization')] *)
  body : string;
}.

(** [error.message] as it ends up in the response: the text given to
    [new Error], or the engine's own text for an error it raised. *)
Inductive Message :=
| Text (s : string)
| EngineText (e : Thrown).

(** The object handed to [JSON.stringify] for the response body. *)
Record Body := {
  success : bool;
  error : option Message;
  analysis : option Row;
}.

Record Response := {
  status : N;
  headers : list (string * string);
  payload : option Body;
}.

Record User := { id : string }.

(** [{ data: { user }, error }] of [auth.getUser]. *)
Record AuthResponse := {
  user : option User;
  authError : option string;
}.

(** The chat-completion request. *)
Record ChatRequest := {
  model : string;
  system_content : string;
  user_content : string;
  max_tokens : N;
  temperature : string;
}.

Record FetchResponse := {
  ok : bool;
  text : string;
}.

(** Everything outside the handler: the auth service, the model API, the
    runtime's JSON parser ([None] when it throws), failures the database
    reports on insert, and the values the database generates. *)
Record World := {
  getUser : string -> AuthResponse;
  fetch : string -> ChatRequest -> option FetchResponse;
  JSON_parse : JsValue -> option JsValue;
  insert_failure : Row -> option string;
  gen_random_uuid : string;
  now : string;
}.

Inductive Event :=
| EvGetUser (token : string)
| EvSelect (table : string) (filters : list (string * JsValue))
| EvFetch (url : string) (request : ChatRequest)
| EvInsert (table : string) (row : Row).

Record ServerState := {
  db : Database;
  events : list Event;
}.

(** *** A state and exception monad for the body of the [try] block *)

Definition M (A : Type) : Type := ServerState -> Completion A * ServerState.

Definition ret {A} (a : A) : M A := fun st => (Normal a, st).

Definition bind {A B} (m : M A) (k : A -> M B) : M B :=
  fun st =>
    match m st with
    | (Normal a, st') => k a st'
    | (Throw e, st') => (Throw e, st')
    end.

Definition throw {A} (e : Thrown) : M A := fun st => (Throw e, st).

Definition lift {A} (c : Completion A) : M A := fun st => (c, st).

Definition emit (e : Event) : M unit :=
  fun st => (Normal tt, {| db := db st; events := (events st ++ [e])%list |}).

Definition get_db : M Database := fun st => (Normal (db st), st).

Definition put_db (d : Database) : M unit :=
  fun st => (Normal tt, {| db := d; events := events st |}).

(** [if (cond) throw new Error(message);] *)
Definition throw_if (cond : bool) (message : string) : M unit :=
  if cond then throw (ThrowError message) else ret tt.

Notation "'let*' x ':=' m 'in' k" := (bind m (fun x => k))
  (at level 10, x pattern, m at level 100, k at level 200).

(** *** Calls to the services *)

Section Handler.
Variable w : World.

Definition auth_getUser (token : string) : M AuthResponse :=
  let* _ := emit (EvGetUser token) in
  ret (getUser w token).

(** Does the row pass [.eq(column, value)] ?  The value is sent as text. *)
Definition eq_filter (r : Row) (f : string * JsValue) : bool :=
  match text_of (r !! f.1) with
  | Some s => String.eqb s (ToString f.2)
  | None => false
  end.

(** [from(table).select('*').eq(..).eq(..).single()] with the service role
    key, which row level security does not restrict: the row when exactly
    one matches, an error otherwise. *)
Definition select_single (table : string) (filters : list (string * JsValue))
    : M (option Row) :=
  let* _ := emit (EvSelect table filters) in
  let* d := get_db in
  match filter (fun r => forallb (eq_filter r) filters) (rows d table) with
  | [r] => ret (Some r)
  | _ => ret None
  end.

Definition is_undefined (v : JsValue) : bool :=
  match v with JUndefined => true | _ => false end.

(** The properties of an object literal that [JSON.stringify] keeps. *)
Definition json_fields (fields : list (string * JsValue)) : Row :=
  list_to_map (filter (fun f => negb (is_undefined f.2)) fields).

(** [from(table).insert(obj).select().single()]: the stored row, or the
    error. *)
Definition insert_returning (table : string) (t : Table)
    (fields : list (string * JsValue)) : M (Row + string) :=
  let row := json_fields fields in
  let* _ := emit (EvInsert table row) in
  match insert_failure w row with
  | Some e => ret (inr e)
  | None =>
      let saved := with_defaults t (gen_random_uuid w) (now w) row in
      let* d := get_db in
      let* _ := put_db (<[table := (rows d table ++ [saved])%list]> d) in
      ret (inl saved)
  end.

(** [await response.json()], also [await req.json()] *)
Definition json (text : string) : M JsValue :=
  match JSON_parse w (JString text) with
  | Some v => ret v
  | None => throw SyntaxError
  end.

(** [row.column] on a row returned by the database *)
Definition field (r : Row) (column : string) : JsValue :=
  default JUndefined (r !! column).

(** *** The prompt *)

Definition placeholder : string :=
  "Resume content would be extracted from the uploaded file".

(** [let resumeText = resume.content_text; if (!resumeText) { resumeText =
    "..." }]: the value of [resumeText] when the prompt is built. *)
Definition resumeText (resume : Row) : JsValue :=
  let resumeText := field resume "content_text" in
  if negb (truthy resumeText) then JString placeholder else resumeText.

(** The template literal, cut at its [${...}] holes: the lines before the
    first hole and the lines after the last one are fixed. *)
Definition prompt_opening : list string :=
  [ "";
    "Analyze the following resume against the job description and provide a comprehensive analysis.";
    "";
    "RESUME:" ].

Definition prompt_format : list string :=
  [ "";
    "Please provide a detailed analysis in the following JSON format:";
    "{";
    "  " ++ QUOTE ++ "relevance_score" ++ QUOTE ++ ": <number between 0-100>,";
    "  " ++ QUOTE ++ "missing_skills" ++ QUOTE ++ ": ["
         ++ QUOTE ++ "skill1" ++ QUOTE ++ ", "
         ++ QUOTE ++ "skill2" ++ QUOTE ++ "],";
    "  " ++ QUOTE ++ "strengths" ++ QUOTE ++ ": ["
         ++ QUOTE ++ "strength1" ++ QUOTE ++ ", "
         ++ QUOTE ++ "strength2" ++ QUOTE ++ "],";
    "  " ++ QUOTE ++ "weaknesses" ++ QUOTE ++ ": ["
         ++ QUOTE ++ "weakness1" ++ QUOTE ++ ", "
         ++ QUOTE ++ "weakness2" ++ QUOTE ++ "],";
    "  " ++ QUOTE ++ "improvement_suggestions" ++ QUOTE ++ ": "
         ++ QUOTE ++ "Detailed suggestions for improvement" ++ QUOTE ++ ",";
    "  " ++ QUOTE ++ "ai_summary" ++ QUOTE ++ ": "
         ++ QUOTE ++ "Brief summary of the resume" ++ QUOTE ++ ",";
    "  " ++ QUOTE ++ "interview_questions" ++ QUOTE ++ ": ["
         ++ QUOTE ++ "question1" ++ QUOTE ++ ", "
         ++ QUOTE ++ "question2" ++ QUOTE ++ ", "
         ++ QUOTE ++ "question3" ++ QUOTE ++ ", "
         ++ QUOTE ++ "question4" ++ QUOTE ++ ", "
         ++ QUOTE ++ "question5" ++ QUOTE ++ "]";
    "}";
    "";
    "Focus on:";
    "1. ATS compatibility and keyword matching";
    "2. Skills alignment with job requirements";
    "3. Experience relevance";
    "4. Areas for improvement";
    "5. Predicted interview questions based on the role";
    "";
    "Provide actionable, specific feedback." ].

Definition analysisPrompt (resumeText : JsValue) (jobDescription : Row)
    : string :=
  let job_lines :=
    [ ToString resumeText;
      "";
      "JOB DESCRIPTION:";
      "Title: " ++ ToString (field jobDescription "title");
      "Company: "
        ++ ToString (or_else (field jobDescription "company")
                             (JString "Not specified"));
      "Description: " ++ ToString (field jobDescription "description");
      "Requirements: "
        ++ ToString (or_else (field jobDescription "requirements")
                             (JString "Not specified")) ] in
  lines (prompt_opening ++ job_lines ++ prompt_format)%list.

Definition chat_request (prompt : string) : ChatRequest :=
  {| model := "gpt-4o-mini";
     system_content :=
       "You are an expert HR professional and ATS system analyzer. Provide detailed, actionable resume feedback in the requested JSON format.";
     user_content := prompt;
     max_tokens := 2000;
     temperature := "0.3" |}.

Definition openai_url : string :=
  "https://api.openai.com/v1/chat/completions".

(** [await fetch(url, ...)]: a rejected fetch throws. *)
Definition call_openai (prompt : string) : M FetchResponse :=
  let request := chat_request prompt in
  let* _ := emit (EvFetch openai_url request) in
  match fetch w openai_url request with
  | Some r => ret r
  | None => throw TypeError
  end.

(** *** The fallback analysis *)

Definition strings (l : list string) : JsValue := JArray (map JString l).

Definition fallback_fields : Row :=
    {[ "relevance_score" := JNumber "75";
       "missing_skills" := strings ["Project Management"; "Data Analysis"];
       "strengths" := strings ["Strong technical background";
                               "Good communication skills"];
       "weaknesses" := strings ["Limited industry experience";
                                "Missing key certifications"];
       "improvement_suggestions" := JString
         "Consider adding more specific metrics and achievements to quantify your impact. Include relevant keywords from the job description.";
       "ai_summary" := JString
         "Experienced professional with strong technical skills but could benefit from highlighting specific achievements and industry-relevant experience.";
       "interview_questions" := strings
         [ "Tell me about your experience with project management";
           "How do you handle tight deadlines?";
           "Describe a challenging technical problem you solved";
           "What interests you about this role?";
           "Where do you see yourself in 5 years?" ] ]}.

Definition fallback : JsValue := JObject fallback_fields.

(** [try { analysisResult = JSON.parse(analysisText) } catch { analysisResult
    = { ...fallback } }] *)
Definition parse_or_fallback (analysisText : JsValue) : JsValue :=
  match JSON_parse w analysisText with
  | Some v => v
  | None => fallback
  end.

(** *** The handler *)

(** [openAIData.choices[0].message.content] *)
Definition message_content (openAIData : JsValue) : Completion JsValue :=
  match get openAIData "choices" with
  | Throw e => Throw e
  | Normal choices =>
      match get_index choices 0 with
      | Throw e => Throw e
      | Normal choice =>
          match get choice "message" with
          | Throw e => Throw e
          | Normal message => get message "content"
          end
      end
  end.

Definition json_headers : list (string * string) :=
  (corsHeaders ++ [("Content-Type", "application/json")])%list.

(** The body of the [try] block. *)
Definition try_block (req : Request) : M Response :=
  match Authorization req with
  | None => throw (ThrowError "No authorization header")
  | Some authHeader =>
  let* _ := throw_if (String.eqb authHeader "") "No authorization header" in
  let token := replace "Bearer " "" authHeader in
  let* r := auth_getUser token in
  match authError r, user r with
  | None, Some user =>
  let* parsed := json (body req) in
  let* resumeId := lift (get parsed "resumeId") in
  let* jobDescriptionId := lift (get parsed "jobDescriptionId") in
  let* _ := throw_if (negb (truthy resumeId) || negb (truthy jobDescriptionId))
                     "Resume ID and Job Description ID are required" in
  let* resume :=
    select_single "resumes"
      [("id", resumeId); ("user_id", JString (id user))] in
  match resume with
  | None => throw (ThrowError "Resume not found")
  | Some resume =>
  let* jobDescription :=
    select_single "job_descriptions"
      [("id", jobDescriptionId); ("user_id", JString (id user))] in
  match jobDescription with
  | None => throw (ThrowError "Job description not found")
  | Some jobDescription =>
  let* openAIResponse :=
    call_openai (analysisPrompt (resumeText resume) jobDescription) in
  let* _ := throw_if (negb (ok openAIResponse))
                     "Failed to analyze resume with AI" in
  let* openAIData := json (text openAIResponse) in
  let* analysisText := lift (message_content openAIData) in
  let analysisResult := parse_or_fallback analysisText in
  let* relevance_score := lift (get analysisResult "relevance_score") in
  let* missing_skills := lift (get analysisResult "missing_skills") in
  let* strengths := lift (get analysisResult "strengths") in
  let* weaknesses := lift (get analysisResult "weaknesses") in
  let* improvement_suggestions :=
    lift (get analysisResult "improvement_suggestions") in
  let* ai_summary := lift (get analysisResult "ai_summary") in
  let* interview_questions :=
    lift (get analysisResult "interview_questions") in
  let* saved :=
    insert_returning "analysis_reports" analysis_reports
      [ ("user_id", JString (id user));
        ("resume_id", resumeId);
        ("job_description_id", jobDescriptionId);
        ("relevance_score", relevance_score);
        ("missing_skills", missing_skills);
        ("strengths", strengths);
        ("weaknesses", weaknesses);
        ("improvement_suggestions", improvement_suggestions);
        ("ai_summary", ai_summary);
        ("interview_questions", interview_questions) ] in
  match saved with
  | inr saveError => throw (ThrowError "Failed to save analysis")
  | inl savedAnalysis =>
      ret {| status := 200;
             headers := json_headers;
             payload := Some {| success := true; error := None;
                                analysis := Some savedAnalysis |} |}
  end
  end
  end
  | _, _ => throw (ThrowError "Unauthorized")
  end
  end.

(** [error.message || 'An unexpected error occurred'] *)
Definition message_of (e : Thrown) : Message :=
  match e with
  | ThrowError m =>
      Text (if String.eqb m "" then "An unexpected error occurred" else m)
  | _ => EngineText e
  end.

(** [error.message === 'Unauthorized' ? 401 : 500]; no message of the
    engine's own reads 'Unauthorized'. *)
Definition status_of (e : Thrown) : N :=
  match e with
  | ThrowError m => if String.eqb m "Unauthorized" then 401 else 500
  | _ => 500
  end.

(** The [catch] block. *)
Definition catch_block (e : Thrown) : Response :=
  {| status := status_of e;
     headers := json_headers;
     payload := Some {| success := false; error := Some (message_of e);
                        analysis := None |} |}.

(** The function given to [serve]: the response, and what the invocation
    did to the database and to the outside. *)
Definition serve (req : Request) (d : Database) : Response * ServerState :=
  let st := {| db := d; events := [] |} in
  if String.eqb (method req) "OPTIONS" then
    ({| status := 200; headers := corsHeaders; payload := None |}, st)
  else
    match try_block req st with
    | (Normal response, st') => (response, st')
    | (Throw e, st') => (catch_block e, st')
    end.

End Handler.
End AnalyzeResume.

(** ** Notions used to state the properties *)

Module Props.
Import Js Sql.

(** The four tables of the public schema; each has a [user_id] column. *)
Definition owned_tables : list string :=
  [ "profiles"; "resumes"; "job_descriptions"; "analysis_reports" ].


(** The foreign keys of [analysis_reports]: parent table and column. *)
Definition report_parents : list (string * string) :=
  [ ("resumes", "resume_id"); ("job_descriptions", "job_description_id") ].

Definition success_toast : Dashboard.Toast :=
  {| Dashboard.variant := None; Dashboard.title := "Success";
     Dashboard.description := "Resume uploaded successfully" |}.

(** The user a request's credential stands for, if it is valid: a
    non-empty Authorization header whose token the auth service accepts. *)
Definition caller (w : AnalyzeResume.World) (req : AnalyzeResume.Request)
    : option AnalyzeResume.User :=
  match AnalyzeResume.Authorization req with
  | None => None
  | Some h =>
      if String.eqb h "" then None
      else
        let r := AnalyzeResume.getUser w (replace "Bearer " "" h) in
        match AnalyzeResume.authError r, AnalyzeResume.user r with
        | None, Some u => Some u
        | _, _ => None
        end
  end.

(** The rows of [table] that [.eq('id', idv).eq('user_id', u.id)] selects. *)
Definition owned_rows (d : Database) (table : string) (idv : JsValue)
    (u : AnalyzeResume.User) : list Row :=
  filter (fun r => forallb (AnalyzeResume.eq_filter r)
                     [("id", idv); ("user_id", JString (AnalyzeResume.id u))])
         (rows d table).





End Props.

(** ** Concrete users, rows, worlds and requests *)

Module Examples.
Import Js Sql.

Definition alice : string := "user-a".
Definition bob : string := "user-b".

Definition resume_a : Row :=
  {[ "id" := JString "resume-1"; "user_id" := JString alice;
     "title" := JString "cv"; "file_name" := JString "cv.pdf";
     "file_path" := JString "user-a/1700000000000.pdf";
     "file_size" := JNumber "1024"; "content_text" := JNull ]}.

Definition job_a : Row :=
  {[ "id" := JString "job-1"; "user_id" := JString alice;
     "title" := JString "Backend developer"; "company" := JNull;
     "description" := JString "Build and run web services";
     "requirements" := JString "Five years of experience" ]}.

Definition report_a : Row :=
  {[ "id" := JString "report-1"; "user_id" := JString alice;
     "resume_id" := JString "resume-1";
     "job_description_id" := JString "job-1";
     "relevance_score" := JNumber "80" ]}.

Definition resume_b : Row :=
  {[ "id" := JString "resume-2"; "user_id" := JString bob;
     "title" := JString "resume"; "file_name" := JString "resume.docx";
     "file_path" := JString "user-b/1700000000001.docx";
     "content_text" := JString "Ten years of plumbing" ]}.

Definition db0 : Database :=
  {[ "resumes" := [resume_a; resume_b];
     "job_descriptions" := [job_a];
     "analysis_reports" := [report_a] ]}.

(** *** The upload flow *)

Definition cv : Dashboard.File :=
  {| Dashboard.name := "cv.final.pdf";
     Dashboard.type := "application/pdf";
     Dashboard.size := 204800 |}.

Definition notes : Dashboard.File :=
  {| Dashboard.name := "notes.txt";
     Dashboard.type := "text/plain";
     Dashboard.size := 12 |}.

Definition signed_in : Dashboard.User := {| Dashboard.id := alice |}.

Definition browser : Dashboard.Env :=
  {| Dashboard.Date_now := 1700000000000;
     Dashboard.gen_random_uuid := "resume-3";
     Dashboard.now := "2023-11-14T22:13:20Z";
     Dashboard.upload_failure := fun _ _ => None;
     Dashboard.insert_failure := fun _ => None |}.

Definition page : Dashboard.State :=
  {| Dashboard.storage := ∅;
     Dashboard.db := db0;
     Dashboard.toasts := [];
     Dashboard.isUploading := false;
     Dashboard.calls := [] |}.

(** *** The orchestration endpoint *)

Import AnalyzeResume.

Definition quoted (s : string) : string := QUOTE ++ s ++ QUOTE.

(** [{"resumeId":"resume-1","jobDescriptionId":"job-1"}] *)
Definition ids_text : string :=
  "{" ++ quoted "resumeId" ++ ":" ++ quoted "resume-1" ++ ","
  ++ quoted "jobDescriptionId" ++ ":" ++ quoted "job-1" ++ "}".

Definition ids_value : JsValue :=
  JObject {[ "resumeId" := JString "resume-1";
             "jobDescriptionId" := JString "job-1" ]}.

(** What the model answered: prose, not JSON. *)
Definition apology : string := "I am sorry, I cannot analyze this resume.".

(** [{"choices":[{"message":{"content":"I am sorry, ..."}}]}] *)
Definition reply_text : string :=
  "{" ++ quoted "choices" ++ ":[{" ++ quoted "message" ++ ":{"
  ++ quoted "content" ++ ":" ++ quoted apology ++ "}}]}".

Definition reply_value : JsValue :=
  JObject {[ "choices" :=
    JArray [ JObject {[ "message" :=
      JObject {[ "content" := JString apology ]} ]} ] ]}.

(** [JSON.parse] on the texts that occur below; [apology] is not JSON. *)
Definition parse (v : JsValue) : option JsValue :=
  match v with
  | JString s =>
      if String.eqb s ids_text then Some ids_value
      else if String.eqb s reply_text then Some reply_value
      else if String.eqb s "{}" then Some (JObject ∅)
      else None
  | _ => None
  end.

Definition accept_alice (token : string) : AuthResponse :=
  if String.eqb token "token-a"
  then {| user := Some {| id := alice |}; authError := None |}
  else {| user := None; authError := Some "invalid JWT" |}.

Definition reply : FetchResponse := {| ok := true; text := reply_text |}.

(** A world in which every service answers. *)
Definition world : World :=
  {| getUser := accept_alice;
     fetch := fun _ _ => Some reply;
     JSON_parse := parse;
     insert_failure := fun _ => None;
     gen_random_uuid := "report-2";
     now := "2023-11-14T22:13:20Z" |}.


Definition request : Request :=
  {| method := "POST"; Authorization := Some "Bearer token-a";
     body := ids_text |}.

Definition request_without_header : Request :=
  {| method := "POST"; Authorization := None; body := ids_text |}.



Definition prompt : ChatRequest :=
  chat_request (analysisPrompt (JString placeholder) job_a).


End Examples.

(** * Properties of the storage layer *)

Import Js Sql Props.


Lemma passes_owner (A : string) (r : Row) :
  passes (Some A) r (Some owner_is_caller) = true ↔ owner r = Some A.
Proof.
  unfold passes, owner_is_caller, eval_cond, eval_scalar, owner.
  destruct (text_of (r !! "user_id")) as [o|]; [|split; discriminate].
  destruct (String.eqb_spec A o); split; congruence.
Qed.





Lemma rows_insert_eq (db : Database) (t : string) (l : list Row) :
  rows (<[t := l]> db) t = l.
Proof. unfold rows. by rewrite lookup_insert_eq. Qed.

Lemma rows_insert_ne (db : Database) (t t' : string) (l : list Row) :
  t ≠ t' → rows (<[t := l]> db) t' = rows db t'.
Proof. intros. unfold rows. by rewrite lookup_insert_ne. Qed.

(** Unfold a deletion along the references the schema declares. *)
Ltac eval_references :=
  repeat match goal with
  | |- context [cascading_references ?t] =>
      let l := eval vm_compute in (cascading_references t) in
      change (cascading_references t) with l
  end.

Ltac run_cascade :=
  cbn [List.length schema delete_where]; eval_references;
  cbn [fold_left delete_where]; eval_references; cbn [fold_left].

(** Rows of the targeted table after a delete: exactly the non-victims. *)
Lemma delete_from_target (db : Database) (table : string) (victim : Row → bool) :
  In table owned_tables →
  rows (delete_from table victim db) table
  = filter (λ r, negb (victim r)) (rows db table).
Proof.
  intros Ht. unfold delete_from.
  repeat (destruct Ht as [<- | Ht]; [
    run_cascade;
    rewrite ?rows_insert_eq, ?(rows_insert_ne _ "analysis_reports") by done;
    by rewrite ?rows_insert_eq |]).
  destruct Ht.
Qed.

Lemma delete_from_reports (db : Database) (parent fk : string) (victim : Row → bool) :
  In (parent, fk) report_parents →
  rows (delete_from parent victim db) "analysis_reports"
  = filter (λ r, negb (refers_to fk "id"
                         (filter (λ p, victim p) (rows db parent)) r))
           (rows db "analysis_reports").
Proof.
  intros [[= <- <-] | [[= <- <-] | []]]; unfold delete_from;
    run_cascade;
    by rewrite rows_insert_eq, rows_insert_ne.
Qed.







(** C7: deleting a resume (or a job description) removes it, and no report
    whose resume_id (job_description_id) holds its key is left in
    [analysis_reports]. *)
Theorem C7_delete_cascades (db : Database) (parent fk key : string)
    (victim : Row → bool) (p report : Row) :
  In (parent, fk) report_parents →
  p ∈ rows db parent → victim p = true →
  text_of (p !! "id") = Some key →
  text_of (report !! fk) = Some key →
  (p ∉ rows (delete_from parent victim db) parent)
  ∧ (report ∉ rows (delete_from parent victim db) "analysis_reports").
Proof.
  intros Hfk Hp Hv Hid Href. split.
  - rewrite delete_from_target.
    + intros [Hkeep _]%list_elem_of_filter. by rewrite Hv in Hkeep.
    + destruct Hfk as [[= <- _] | [[= <- _] | []]]; simpl; auto.
  - rewrite (delete_from_reports db parent fk) by done.
    intros [Hkeep _]%list_elem_of_filter.
    apply Is_true_true, negb_true_iff in Hkeep.
    unfold refers_to in Hkeep. rewrite Href in Hkeep.
    apply not_true_iff_false in Hkeep. apply Hkeep.
    apply existsb_exists. exists p. split.
    + apply list_elem_of_In, list_elem_of_filter. split; [by rewrite Hv | done].
    + rewrite Hid. apply String.eqb_refl.
Qed.

(** * Properties of the upload flow *)

Section Defaults.
Variables (uuid now : string).

Lemma fill_defaults_keeps (cols : list Column) (r : Row) (k : string)
    (v : JsValue) :
  r !! k = Some v → fill_defaults uuid now cols r !! k = Some v.
Proof.
  intros Hk. induction cols as [|c cols IH]; [done|].
  cbn [fill_defaults fold_right]. fold (fill_defaults uuid now cols r).
  destruct (fill_defaults uuid now cols r !! col_name c) eqn:Hc; [done|].
  rewrite lookup_insert_ne; [done | congruence].
Qed.


Lemma with_defaults_keeps (t : Table) (r : Row) (k : string) (v : JsValue) :
  r !! k = Some v → with_defaults t uuid now r !! k = Some v.
Proof. apply fill_defaults_keeps. Qed.


End Defaults.

Import Dashboard.

Lemma no_slash_dot_dot (s t : string) :
  no_slash_dot (s ++ String "."%char t) = false.
Proof.
  induction s as [|c s IH]; [done|].
  simpl. rewrite IH. apply andb_false_r.
Qed.

Lemma strip_extension_final (base ext : string) :
  ext ≠ "" → no_slash_dot ext = true →
  strip_extension (base ++ "." ++ ext) = base.
Proof.
  intros Hne Hext. change ("." ++ ext) with (String "."%char ext).
  induction base as [|c base IH].
  - simpl. apply String.eqb_neq in Hne. by rewrite Hne, Hext.
  - simpl. rewrite IH.
    by rewrite no_slash_dot_dot, andb_false_r.
Qed.

Lemma strip_extension_no_dot (s : string) :
  no_slash_dot s = true → strip_extension s = s.
Proof.
  induction s as [|c s IH]; [done|]. cbn [no_slash_dot strip_extension].
  intros [Hc Hs]%andb_true_iff. rewrite IH by done.
  apply negb_true_iff, orb_false_iff in Hc as [_ ->]. done.
Qed.

Lemma split_on_nonempty (sep : ascii) (s : string) : split_on sep s ≠ [].
Proof.
  destruct s as [|c s]; [done|]. cbn [split_on].
  destruct (Ascii.eqb c sep); [done|]. by destruct (split_on sep s).
Qed.

Lemma split_on_no_dot (s : string) :
  no_slash_dot s = true → split_on "."%char s = [s].
Proof.
  induction s as [|c s IH]; [done|]. cbn [no_slash_dot split_on].
  intros [Hc Hs]%andb_true_iff. rewrite IH by done.
  apply negb_true_iff, orb_false_iff in Hc as [_ ->]. done.
Qed.

Lemma split_on_app (sep : ascii) (s t : string) :
  split_on sep (s ++ String sep t) = (split_on sep s ++ split_on sep t)%list.
Proof.
  induction s as [|c s IH]; simpl.
  - by rewrite Ascii.eqb_refl.
  - rewrite IH. pose proof (split_on_nonempty sep s).
    destruct (Ascii.eqb c sep); [reflexivity|].
    destruct (split_on sep s); [congruence | reflexivity].
Qed.

Lemma pop_split_final (base ext : string) :
  no_slash_dot ext = true →
  pop (split_on "."%char (base ++ "." ++ ext)) = Some ext.
Proof.
  intros Hext. change ("." ++ ext) with (String "."%char ext).
  unfold pop. rewrite split_on_app, (split_on_no_dot ext) by done.
  by rewrite last_snoc.
Qed.


(** C4: a file whose MIME type is not one of the two allowed types, or
    whose size exceeds 5MB (5 * 1024 * 1024 bytes), is rejected before any
    call leaves the page: no storage call, no database call, the bucket and
    the database are as they were, and a signed-in user is shown one
    destructive toast. *)
Theorem C4_upload_rejected (env : Env) (file : File) (user : option User)
    (st : State) :
  includes allowedTypes (type file) = false
  ∨ (5 * 1024 * 1024 < size file)%N →
  let st' := handleFileUpload env (Some file) user st in
  calls st' = calls st ∧ storage st' = storage st ∧ db st' = db st
  ∧ isUploading st' = isUploading st
  ∧ (is_Some user →
     ∃ t, toasts st' = (toasts st ++ [t])%list
          ∧ variant t = Some "destructive").
Proof.
  intros Hbad. unfold handleFileUpload.
  destruct user as [user|]; [|by split_and!; [..|intros []]].
  destruct (includes allowedTypes (type file)) eqn:Htype; cbn [negb].
  - destruct Hbad as [|Hsize]; [done|].
    apply N.ltb_lt in Hsize. rewrite Hsize.
    split_and!; try done. intros _. by eexists.
  - split_and!; try done. intros _. by eexists.
Qed.

Lemma insert_own_row (uid : string) (table : string) (r : Row) :
  table = "resumes" → owner r = Some uid →
  check_ok (Some uid) table INSERT r = true.
Proof.
  intros -> Hr. unfold check_ok.
  change (policies_for "resumes" INSERT)
    with [policy_check "Users can create their own resumes" "resumes" INSERT].
  cbn [existsb effective_check with_check_expr policy_check].
  rewrite orb_false_r. apply orb_true_iff. right. by apply passes_owner.
Qed.

Lemma toast_not_success (l : list Toast) (t d : string) :
  (l ++ [destructive t d])%list ≠ (l ++ [success_toast])%list.
Proof. intros H. apply app_inv_head in H. discriminate. Qed.

(** C10: after a successful upload (the page shows the success toast) one
    row was added to [resumes]; its title is the file's name cut by
    [/\.[^/.]+$/] (for a name [base.ext] with a non-empty [ext] free of dots
    and slashes: [base]), its file_name is the file's name, and its
    file_path is the key [{identity}/{timestamp}.{ext}] under which the
    blob was stored by the same call. *)
Theorem C10_upload_metadata (env : Env) (file : File) (user : User)
    (st : State) :
  let st' := handleFileUpload env (Some file) (Some user) st in
  let key := storage_key env user file in
  toasts st' = (toasts st ++ [success_toast])%list →
  ∃ row : Row,
    rows (db st') "resumes" = (rows (db st) "resumes" ++ [row])%list
    ∧ storage st !! key = None
    ∧ storage st' = <[key := file]> (storage st)
    ∧ row !! "title" = Some (JString (strip_extension (name file)))
    ∧ row !! "file_name" = Some (JString (name file))
    ∧ row !! "file_path" = Some (JString key)
    ∧ (∀ ext, pop (split_on "."%char (name file)) = Some ext →
         key = id user ++ "/" ++ string_of_N (Date_now env) ++ "." ++ ext)
    ∧ (∀ base ext, name file = base ++ "." ++ ext →
         ext ≠ "" → no_slash_dot ext = true →
         row !! "title" = Some (JString base)
         ∧ key = id user ++ "/" ++ string_of_N (Date_now env) ++ "." ++ ext).
Proof.
  intros st' key. subst st'. unfold handleFileUpload.
  destruct (includes allowedTypes (type file));
    [|intros []%toast_not_success].
  destruct (5 * 1024 * 1024 <? size file)%N;
    [intros []%toast_not_success|].
  cbn [negb]. fold key. unfold storage_upload.
  destruct (upload_failure env key file);
    [intros []%toast_not_success|].
  cbn [storage call setIsUploading].
  destruct (storage st !! key) eqn:Hfree;
    [intros []%toast_not_success|].
  unfold db_insert.
  destruct (insert_failure env (resume_row user file key));
    [intros []%toast_not_success|].
  change (find_table "resumes") with (Some resumes).
  cbv zeta. cbn [db call set_storage].
  set (new := with_defaults resumes (gen_random_uuid env) (now env)
                            (resume_row user file key)).
  assert (∀ k v, resume_row user file key !! k = Some v → new !! k = Some v)
    as Hkeep by (intros k v; apply with_defaults_keeps).
  clearbody new.
  unfold exec_insert. rewrite insert_own_row; [|done|].
  2:{ unfold owner. by rewrite (Hkeep "user_id" (JString (id user))). }
  intros _. exists new. cbn.
  rewrite rows_insert_eq.
  assert (new !! "title" = Some (JString (strip_extension (name file))))
    as Htitle by (by apply Hkeep).
  assert (∀ ext, pop (split_on "."%char (name file)) = Some ext →
            key = id user ++ "/" ++ string_of_N (Date_now env) ++ "." ++ ext)
    as Hkey.
  { intros ext Hext. subst key. unfold storage_key. by rewrite Hext. }
  split_and!; try done; try (by apply Hkeep).
  intros base ext Hname Hne Hext. split.
  - rewrite Htitle, Hname. by rewrite strip_extension_final.
  - apply Hkey. rewrite Hname. by apply pop_split_final.
Qed.

(** Enough for an upload to succeed: an allowed file, services that do not
    fail, and a storage key that is free. *)
Lemma upload_succeeds (env : Env) (file : File) (user : User) (st : State) :
  includes allowedTypes (type file) = true →
  (size file ≤ 5 * 1024 * 1024)%N →
  upload_failure env (storage_key env user file) file = None →
  storage st !! storage_key env user file = None →
  insert_failure env (resume_row user file (storage_key env user file))
    = None →
  toasts (handleFileUpload env (Some file) (Some user) st)
  = (toasts st ++ [success_toast])%list.
Proof.
  intros Htype Hsize Hup Hfree Hins. unfold handleFileUpload.
  rewrite Htype. cbn [negb].
  apply N.ltb_ge in Hsize. rewrite Hsize.
  unfold storage_upload. rewrite Hup. cbn [storage call setIsUploading].
  rewrite Hfree. unfold db_insert. rewrite Hins.
  change (find_table "resumes") with (Some resumes).
  unfold exec_insert. rewrite insert_own_row; [reflexivity | done |].
  unfold owner.
  by rewrite (with_defaults_keeps _ _ _ _ "user_id" (JString (id user))).
Qed.

(** * Properties of the orchestration endpoint *)

Import AnalyzeResume.

Ltac red_state := cbn [db events fst snd negb orb andb app].

Ltac unfold_handler :=
  unfold serve, try_block, auth_getUser, select_single, json, call_openai,
    insert_returning, throw_if, bind, emit, get_db, put_db, lift, ret, throw
    in *;
  cbn [db events fst snd] in *.


(** C2, the case the code misses: a request without an Authorization
    header (or with an empty one) is answered with status 500, not 401; the
    body has success:false and the error "No authorization header". *)
Theorem C2_missing_header_is_500 (w : World) (req : Request) (d : Database) :
  method req ≠ "OPTIONS" →
  Authorization req = None ∨ Authorization req = Some "" →
  serve w req d
  = ({| status := 500; headers := json_headers;
        payload := Some {| success := false;
                           error := Some (Text "No authorization header");
                           analysis := None |} |},
     {| db := d; events := [] |}).
Proof.
  intros Hm%String.eqb_neq Hh. unfold_handler. rewrite Hm.
  by destruct Hh as [-> | ->].
Qed.

(** The other case of C2: a credential the auth service rejects gives 401. *)
Lemma invalid_credential_is_401 (w : World) (req : Request) (d : Database)
    (h : string) :
  method req ≠ "OPTIONS" →
  Authorization req = Some h → h ≠ "" → caller w req = None →
  status (serve w req d).1 = 401%N
  ∧ payload (serve w req d).1
    = Some {| success := false; error := Some (Text "Unauthorized");
              analysis := None |}
  ∧ db (serve w req d).2 = d.
Proof.
  intros Hm%String.eqb_neq Hh Hne%String.eqb_neq. unfold caller.
  unfold_handler. rewrite Hm, Hh, Hne. cbn [fst snd db events].
  destruct (getUser w _) as [[u|] [e|]]; done.
Qed.

(** The handler's first steps, for a caller with a valid credential. *)
Lemma caller_inv (w : World) (req : Request) (u : User) :
  caller w req = Some u →
  ∃ h, Authorization req = Some h ∧ String.eqb h "" = false
       ∧ authError (getUser w (replace "Bearer " "" h)) = None
       ∧ user (getUser w (replace "Bearer " "" h)) = Some u.
Proof.
  unfold caller. destruct (Authorization req) as [h|]; [|done].
  destruct (String.eqb h "") eqn:Hne; [done|].
  destruct (getUser w _) as [[u'|] [e|]] eqn:Hg; try done.
  intros [= ->]. exists h. by rewrite Hne, Hg.
Qed.







Lemma truthy_defined (v : JsValue) : truthy v = true → is_undefined v = false.
Proof. by destruct v. Qed.














Lemma get_normal (v : JsValue) (k : string) :
  v ≠ JNull → v ≠ JUndefined → ∃ a, get v k = Normal a.
Proof. destruct v; intros; try done; by eexists. Qed.

(** Enough for an analysis to be stored and returned. *)
Lemma analysis_succeeds (w : World) (req : Request) (d : Database)
    (u : User) (v rid jid : JsValue) (resume job : Row)
    (resp : FetchResponse) (data content : JsValue) :
  method req ≠ "OPTIONS" →
  caller w req = Some u →
  JSON_parse w (JString (body req)) = Some v →
  get v "resumeId" = Normal rid → truthy rid = true →
  get v "jobDescriptionId" = Normal jid → truthy jid = true →
  owned_rows d "resumes" rid u = [resume] →
  owned_rows d "job_descriptions" jid u = [job] →
  fetch w openai_url (chat_request (analysisPrompt (resumeText resume) job))
    = Some resp →
  ok resp = true →
  JSON_parse w (JString (text resp)) = Some data →
  message_content data = Normal content →
  parse_or_fallback w content ≠ JNull →
  parse_or_fallback w content ≠ JUndefined →
  (∀ row, insert_failure w row = None) →
  status (serve w req d).1 = 200%N
  ∧ ∃ row, In (EvInsert "analysis_reports" row) (events (serve w req d).2).
Proof.
  intros Hm%String.eqb_neq (h & Hh & Hne & Herr & Hu)%caller_inv
    Hv Hrid Hr Hjid Hj Hres Hjob Hfetch Hok Hdata Hcontent Hnull Hundef Hins.
  unfold owned_rows in Hres, Hjob. unfold_handler.
  rewrite Hm, Hh, Hne, Herr, Hu, Hv, Hrid, Hjid. red_state.
  rewrite Hr, Hj. red_state.
  match goal with
  | |- context [filter ?P (rows d "resumes")] =>
      change (filter P (rows d "resumes"))
        with (owned_rows d "resumes" rid u)
  end.
  fold (owned_rows d "resumes" rid u) in Hres. rewrite Hres. red_state.
  match goal with
  | |- context [filter ?P (rows d "job_descriptions")] =>
      change (filter P (rows d "job_descriptions"))
        with (owned_rows d "job_descriptions" jid u)
  end.
  fold (owned_rows d "job_descriptions" jid u) in Hjob. rewrite Hjob.
  red_state. rewrite Hfetch. red_state. rewrite Hok. red_state.
  rewrite Hdata. red_state. rewrite Hcontent.
  repeat match goal with
  | |- context [get (parse_or_fallback w content) ?k] =>
      let a := fresh "a" in
      destruct (get_normal (parse_or_fallback w content) k Hnull Hundef)
        as [a ->]
  end.
  red_state. rewrite Hins. red_state.
  split; [done|]. eexists. simpl. do 4 right. left. reflexivity.
Qed.

(** * The properties at concrete inputs *)

Import Examples.


Lemma C7_delete_cascades_witness :
  report_a ∈ rows db0 "analysis_reports"
  ∧ (report_a ∉ rows (delete_from "resumes" (has_id "resume-1") db0)
                     "analysis_reports").
Proof.
  split; [apply list_elem_of_In; vm_compute; tauto|].
  apply (C7_delete_cascades db0 "resumes" "resume_id" "resume-1"
           (has_id "resume-1") resume_a report_a).
  - simpl. tauto.
  - apply list_elem_of_In. vm_compute. tauto.
  - reflexivity.
  - reflexivity.
  - reflexivity.
Defined.


Lemma C2_missing_header_is_500_witness :
  status (serve world request_without_header db0).1 = 500%N.
Proof.
  rewrite (C2_missing_header_is_500 world request_without_header db0).
  - reflexivity.
  - discriminate.
  - left. reflexivity.
Defined.

Lemma C4_upload_rejected_witness :
  Dashboard.calls
    (Dashboard.handleFileUpload browser (Some notes) (Some signed_in) page)
  = [].
Proof.
  apply (C4_upload_rejected browser notes (Some signed_in) page).
  left. reflexivity.
Defined.

Lemma C10_upload_metadata_witness :
  ∃ row : Row,
    row !! "title" = Some (JString "cv.final")
    ∧ row !! "file_name" = Some (JString "cv.final.pdf")
    ∧ row !! "file_path" = Some (JString "user-a/1700000000000.pdf")
    ∧ Dashboard.storage
        (Dashboard.handleFileUpload browser (Some cv) (Some signed_in) page)
      !! "user-a/1700000000000.pdf" = Some cv.
Proof.
  destruct (C10_upload_metadata browser cv signed_in page)
    as (row & _ & _ & Hstore & Htitle & Hname & Hpath & _).
  - reflexivity.
  - exists row. split_and!; [exact Htitle | exact Hname | exact Hpath |].
    rewrite Hstore. apply lookup_insert_eq.
Defined.






